(** * todolist-collection: the to-do REST API

    A shallow embedding of [api/src/controllers/todosController.ts] and of
    the application wiring of [api/src/index.ts], with the properties of the
    specification that concern them.

    The handlers are [async] functions that [await] one call on the
    Mongoose model [Todo] inside a [try]/[catch].  They are embedded as
    finite interaction trees: a handler either responds, or awaits a store
    call and continues with its outcome (a resolved value or a thrown
    error).  Running a handler against a store threads the store's state
    and records the calls that were made.

    The model file, the routers and the delete handler are not among the
    sources: the store, the schema and the delete handler are modelled
    from the specification, and what the specification leaves unsaid about
    the store is a parameter of the model. *)

From Stdlib Require Import String Ascii List Bool ZArith Lia.
Import ListNotations.
Open Scope string_scope.
Open Scope Z_scope.

Set Implicit Arguments.
Set Warnings "-register-all".

(** ** JavaScript values *)

Module Js.

(** The values a parsed JSON body, a Mongoose document or a response body
    can hold.  Numbers are integers: the handlers only test them for
    truthiness.  An object is its list of entries in source order. *)
Inductive value : Type :=
| Undefined
| Null
| Bool (b : bool)
| Num (n : Z)
| Str (s : string)
| Arr (l : list value)
| Obj (fields : list (string * value)).

(** [!v] is [negb (truthy v)]. *)
Definition truthy (v : value) : bool :=
  match v with
  | Undefined | Null => false
  | Bool b => b
  | Num n => negb (n =? 0)
  | Str s => negb (s =? "")%string
  | Arr _ | Obj _ => true
  end.

(** [v === ""]. *)
Definition is_empty_string (v : value) : bool :=
  match v with
  | Str s => (s =? "")%string
  | _ => false
  end.

(** Own property of an object literal; a later duplicate key wins, as in
    [JSON.parse]. *)
Fixpoint lookup (k : string) (fields : list (string * value)) : option value :=
  match fields with
  | [] => None
  | (k', v) :: rest =>
      match lookup k rest with
      | Some v' => Some v'
      | None => if (k =? k')%string then Some v else None
      end
  end.

(** [v.k] for the property names the handlers read ([title], [completed]):
    [None] is the [TypeError] of reading a property of [undefined] or
    [null]; a missing property, and any property of that name on a
    primitive or an array, is [undefined]. *)
Definition get (v : value) (k : string) : option value :=
  match v with
  | Undefined | Null => None
  | Obj fields =>
      Some match lookup k fields with Some x => x | None => Undefined end
  | _ => Some Undefined
  end.

(** The payload has an own property [k]. *)
Definition has (v : value) (k : string) : bool :=
  match v with
  | Obj fields => match lookup k fields with Some _ => true | None => false end
  | _ => false
  end.

End Js.

(** ** Requests, responses and store calls *)

Record Request : Type := mkRequest {
  params_id : string;     (* req.params.id *)
  body : Js.value         (* req.body *)
}.

Record Response : Type := mkResponse {
  status : Z;             (* res.status(n) *)
  json : Js.value         (* res.json(v) *)
}.

(** What a rejected promise carries.  The handlers never inspect it. *)
Inductive StoreError : Type :=
| ValidationError
| CastError
| OtherError (message : string).

(** The calls made on the model: the first three by the controller,
    [deleteMany] by the test fixture, delete-by-id by the delete handler. *)
Inductive StoreCall : Type :=
| Find (filter : Js.value)                       (* Todo.find(filter) *)
| Save (doc : Js.value)                          (* new Todo(doc).save() *)
| FindByIdAndUpdate (id : string) (update : Js.value) (new : bool)
                                                 (* Todo.findByIdAndUpdate(id, update, { new }) *)
| DeleteMany (filter : Js.value)                 (* Todo.deleteMany(filter) *)
| DeleteById (id : string).                      (* the store's delete-by-id *)

Inductive Outcome : Type :=
| Resolved (v : Js.value)
| Thrown (e : StoreError).

(** A handler run: respond, or await a store call and go on. *)
Inductive Handler : Type :=
| Respond (r : Response)
| Await (c : StoreCall) (k : Outcome -> Handler).

Definition error_body (msg : string) : Js.value :=
  Js.Obj [("error", Js.Str msg)].

Definition internal_server_error : Response :=
  mkResponse 500 (error_body "Internal server error").

Definition invalid_request : Response :=
  mkResponse 400 (error_body "Invalid request").


(** ** The controller *)

Module todosController.

Definition getAllTodos (req : Request) : Handler :=
  Await (Find (Js.Obj []))
    (fun o =>
       match o with
       | Resolved todos => Respond (mkResponse 200 todos)
       | Thrown _ => Respond internal_server_error
       end).

Definition addTodo (req : Request) : Handler :=
  Await (Save (body req))
    (fun o =>
       match o with
       | Resolved newTodo => Respond (mkResponse 201 newTodo)
       | Thrown _ => Respond internal_server_error
       end).

(** [(!newValue.title && !newValue.completed) || newValue.title === ""] *)
Definition rejects (title completed : Js.value) : bool :=
  (negb (Js.truthy title) && negb (Js.truthy completed))
  || Js.is_empty_string title.

Definition editTodo (req : Request) : Handler :=
  let id := params_id req in
  let newValue := body req in
  match Js.get newValue "title", Js.get newValue "completed" with
  | Some title, Some completed =>
      if rejects title completed then Respond invalid_request
      else
        Await (FindByIdAndUpdate id newValue true)
          (fun o =>
             match o with
             | Resolved editedTodo => Respond (mkResponse 200 editedTodo)
             | Thrown _ => Respond internal_server_error
             end)
  | _, _ => Respond internal_server_error   (* TypeError, caught *)
  end.

End todosController.

(** ** Running a handler against a store *)

(** A store answers each call with an outcome and a new state. *)
Record Store (S : Type) : Type := mkStore {
  exec : StoreCall -> S -> Outcome * S
}.

Record Run (S : Type) : Type := mkRun {
  response : Response;
  final : S;
  calls : list StoreCall
}.

Fixpoint run (S : Type) (st : Store S) (h : Handler) (s : S) : Run S :=
  match h with
  | Respond r => mkRun r s []
  | Await c k =>
      let (o, s') := exec st c s in
      let r := run st (k o) s' in
      mkRun (response r) (final r) (c :: calls r)
  end.

(** ** Letter case *)

(** Identifiers and route paths are compared without regard to the case of
    ASCII letters. *)
Definition lower (c : ascii) : ascii :=
  let n := nat_of_ascii c in
  if (65 <=? n)%nat && (n <=? 90)%nat then ascii_of_nat (n + 32) else c.

Fixpoint lower_string (s : string) : string :=
  match s with
  | EmptyString => EmptyString
  | String c r => String (lower c) (lower_string r)
  end.

(** ** The Todo model *)

Module Todo.

(** Modelled from the spec: the Item entity, whose declaration is absent
    from the sources; the tests read its identifier as [_id]. *)
Record Item : Type := mkItem {
  _id : string;
  title : string;
  completed : bool
}.

(** The collection in insertion order, and the number of inserts so far,
    from which the next identifier is made. *)
Record Collection : Type := mkCollection {
  docs : list Item;
  inserted : N
}.

Definition toJSON (it : Item) : Js.value :=
  Js.Obj [("_id", Js.Str (_id it));
          ("title", Js.Str (title it));
          ("completed", Js.Bool (completed it))].

Definition is_hex (c : ascii) : bool :=
  let n := nat_of_ascii c in
  ((48 <=? n) && (n <=? 57) || (97 <=? n) && (n <=? 102)
   || (65 <=? n) && (n <=? 70))%nat.

Fixpoint all_hex (s : string) : bool :=
  match s with
  | EmptyString => true
  | String c r => is_hex c && all_hex r
  end.

(** Modelled from the spec: the store's native identifier format, absent
    from the sources; a fixed-length hexadecimal token (24 digits). *)
Definition isValidObjectId (id : string) : bool :=
  (String.length id =? 24)%nat && all_hex id.

Definition hex_digit (d : N) : ascii :=
  match String.get (N.to_nat d) "0123456789abcdef" with
  | Some c => c
  | None => "0"%char
  end.

Fixpoint hex_digits (width : nat) (n : N) (acc : string) : string :=
  match width with
  | O => acc
  | S w => hex_digits w (n / 16)%N (String (hex_digit (n mod 16)%N) acc)
  end.

(** Modelled from the spec: identifier generation, absent from the
    sources; the store assigns each insert a new identifier in its native
    format. *)
Definition objectId (n : N) : string := hex_digits 24 n "".

(** Modelled from the spec: how the schema reads an optional field of a
    payload; it is absent, of the schema's type, or of another type. *)
Inductive Field (A : Type) : Type :=
| Absent
| Given (a : A)
| Bad.
Arguments Absent {A}.
Arguments Bad {A}.

Definition title_field (doc : Js.value) : Field string :=
  match doc with
  | Js.Obj fields =>
      match Js.lookup "title" fields with
      | None | Some Js.Undefined => Absent
      | Some (Js.Str t) => Given t
      | Some _ => Bad
      end
  | _ => Bad
  end.

Definition completed_field (doc : Js.value) : Field bool :=
  match doc with
  | Js.Obj fields =>
      match Js.lookup "completed" fields with
      | None | Some Js.Undefined => Absent
      | Some (Js.Bool b) => Given b
      | Some _ => Bad
      end
  | _ => Bad
  end.

(** Modelled from the spec: the schema of [models/todoModel.ts], absent
    from the sources; [title] is required non-empty text, [completed] is a
    boolean that defaults to [false], and the store assigns [_id]. *)
Definition validate (doc : Js.value) (id : string) : option Item :=
  match title_field doc, completed_field doc with
  | Given t, Absent => if (t =? "")%string then None else Some (mkItem id t false)
  | Given t, Given c => if (t =? "")%string then None else Some (mkItem id t c)
  | _, _ => None
  end.

(** The updates whose merge the spec describes: a [title], when supplied,
    is text, and a [completed], when supplied, is a boolean. *)
Definition typed (update : Js.value) : bool :=
  match title_field update, completed_field update with
  | Bad, _ | _, Bad => false
  | _, _ => true
  end.

(** Modelled from the spec: the merge of the supplied fields into an
    Item; [_id] is immutable. *)
Definition merge (update : Js.value) (it : Item) : Item :=
  mkItem (_id it)
         match title_field update with Given t => t | _ => title it end
         match completed_field update with Given c => c | _ => completed it end.

Definition findById (id : string) (l : list Item) : option Item :=
  find (fun it => (_id it =? lower_string id)%string) l.

(** Replaces the first Item whose identifier is [id]. *)
Fixpoint replace (id : string) (new : Item) (l : list Item) : list Item :=
  match l with
  | [] => []
  | it :: rest =>
      if (_id it =? lower_string id)%string then new :: rest
      else it :: replace id new rest
  end.

(** What the store does where the spec is silent. *)
Definition Open : Type := StoreCall -> Collection -> Outcome * Collection.

Section Model.

(** The spec does not say what the store does with an identifier that is
    not in its native format, nor with an update that supplies a field of
    another type than the schema's: both are left open, and so is
    delete-by-id, which no handler of the sources calls. *)
Variable open : Open.

(** Modelled from the spec: the Item Store behind the [Todo] model, a
    document collection that is not part of the sources.  [find] returns
    every Item in insertion order; [save] validates against the schema and
    appends; [findByIdAndUpdate] merges the supplied fields into the Item
    that has the identifier and returns the updated Item (the stored one
    when [new] is not set), and resolves to [null] when the identifier is
    in the native format and no Item has it; [deleteMany] empties the
    collection. *)
Definition model_exec (c : StoreCall) (s : Collection) : Outcome * Collection :=
  match c with
  | Find _ => (Resolved (Js.Arr (map toJSON (docs s))), s)
  | Save doc =>
      match validate doc (objectId (inserted s)) with
      | Some it =>
          (Resolved (toJSON it),
           mkCollection (docs s ++ [it]) (inserted s + 1)%N)
      | None => (Thrown ValidationError, s)
      end
  | FindByIdAndUpdate id update new =>
      match findById id (docs s) with
      | Some old =>
          if typed update then
            let it := merge update old in
            (Resolved (toJSON (if new then it else old)),
             mkCollection (replace id it (docs s)) (inserted s))
          else open c s
      | None =>
          if isValidObjectId id then (Resolved Js.Null, s) else open c s
      end
  | DeleteMany _ => (Resolved (Js.Obj []), mkCollection [] (inserted s))
  | DeleteById _ => open c s
  end.

Definition model : Store Collection := mkStore model_exec.

End Model.

(** One way to fill what is left open: the store raises, as the
    integration tests expect of it for the identifier [123]. *)
Definition raising : Open := fun _ s => (Thrown CastError, s).

End Todo.

(** A store on which every call throws, as the spies of the integration
    tests make [find], [save] and [deleteMany] do. *)
Definition failing : Store unit :=
  mkStore (fun _ s => (Thrown (OtherError "Simulated error"), s)).

(** ** The delete handler *)


(** ** The application *)

Module App.

Inductive Method : Type := GET | POST | PUT | PATCH | DELETE | HEAD | OPTIONS.

Record HttpRequest : Type := mkHttpRequest {
  method : Method;
  path : string;
  payload : Js.value
}.

(** A global middleware ends the response or calls [next()], possibly
    having set [req.body]. *)
Inductive Passed : Type :=
| End (r : Response)
| Next (body : Js.value).

Definition Middleware : Type := HttpRequest -> Passed.

(** A router sees the method, the path below its mount point and the
    body; [None] when none of its routes matches. *)
Definition Router : Type := Method -> string -> Js.value -> option Handler.

Inductive Layer : Type :=
| Use (m : Middleware)                       (* app.use(m) *)
| Mount (prefix : string) (r : Router).      (* app.use(prefix, r) *)

Fixpoint strip (prefix path : string) : option string :=
  match prefix, path with
  | EmptyString, rest => Some rest
  | String a p, String c s =>
      if Ascii.eqb a (lower c) then strip p s else None
  | String _ _, EmptyString => None
  end.

(** The path below a mount point: the prefix must end at a segment
    boundary, and letter case is ignored. *)
Definition below (prefix path : string) : option string :=
  match strip prefix path with
  | Some EmptyString => Some "/"
  | Some (String c rest) =>
      if Ascii.eqb c "/" then Some (String c rest) else None
  | None => None
  end.

(** The response when no layer answers. *)
Definition not_found : Response := mkResponse 404 Js.Undefined.

Fixpoint dispatch (layers : list Layer) (req : HttpRequest) : Handler :=
  match layers with
  | [] => Respond not_found
  | Use m :: rest =>
      match m req with
      | End r => Respond r
      | Next b => dispatch rest (mkHttpRequest (method req) (path req) b)
      end
  | Mount prefix r :: rest =>
      match below prefix (path req) with
      | Some sub =>
          match r (method req) sub (payload req) with
          | Some h => h
          | None => dispatch rest req
          end
      | None => dispatch rest req
      end
  end.

Fixpoint mounted (prefix : string) (layers : list Layer) : bool :=
  match layers with
  | [] => false
  | Use _ :: rest => mounted prefix rest
  | Mount p _ :: rest => (p =? prefix)%string || mounted prefix rest
  end.

Section Wiring.

(** [express.json()], [cors()] and the two routers are not part of the
    sources. *)
Variables (express_json cors : Middleware).
Variables (todosRouter testingRouter : Router).

(** [process.env.NODE_ENV === "test"] *)
Definition test_mode (NODE_ENV : option string) : bool :=
  match NODE_ENV with
  | Some v => (v =? "test")%string
  | None => false
  end.

Definition app (NODE_ENV : option string) : list Layer :=
  [Use express_json; Use cors; Mount "/api/todos" todosRouter]
  ++ (if test_mode NODE_ENV then [Mount "/api/test" testingRouter] else []).

End Wiring.

(** A middleware that calls [next()] and leaves the body as it is. *)
Definition pass : Middleware := fun req => Next (payload req).

(** [cors()] with the default options of the package: a preflight request
    (method [OPTIONS]) is ended with status 204 and an empty body, every
    other request is passed on. *)
Definition cors_default : Middleware :=
  fun req =>
    match method req with
    | OPTIONS => End (mkResponse 204 Js.Undefined)
    | _ => Next (payload req)
    end.

(** The identifier of a path [/:id]: one non-empty segment. *)
Fixpoint no_slash (s : string) : bool :=
  match s with
  | EmptyString => true
  | String c r => negb (Ascii.eqb c "/") && no_slash r
  end.

Definition segment (sub : string) : option string :=
  match sub with
  | String c id =>
      if Ascii.eqb c "/" && negb (id =? "")%string && no_slash id
      then Some id else None
  | EmptyString => None
  end.

(** Modelled from the spec: [routes/todosRouter.ts], absent from the
    sources; the routes of the three handlers that the controller
    defines. *)
Definition todosRoutes : Router :=
  fun m sub b =>
    match m with
    | GET =>
        if (sub =? "/")%string
        then Some (todosController.getAllTodos (mkRequest "" b)) else None
    | POST =>
        if (sub =? "/")%string
        then Some (todosController.addTodo (mkRequest "" b)) else None
    | PATCH =>
        match segment sub with
        | Some id => Some (todosController.editTodo (mkRequest id b))
        | None => None
        end
    | _ => None
    end.

(** Modelled from the spec: [routes/testingRouter.ts] and its reset
    handler, absent from the sources; [POST /deleteAll] deletes every
    Item, answers 200, and 500 with the generic body on a store error. *)
Definition testingRoutes : Router :=
  fun m sub b =>
    match m with
    | POST =>
        if (lower_string sub =? "/deleteall")%string
        then Some (Await (DeleteMany (Js.Obj []))
                     (fun o =>
                        match o with
                        | Resolved _ => Respond (mkResponse 200 Js.Undefined)
                        | Thrown _ => Respond internal_server_error
                        end))
        else None
    | _ => None
    end.

End App.

(** * Properties *)

Import todosController.

(** ** The update handler, case by case *)

Section EditTodo.

Variables (id : string) (newValue title completed : Js.value).
Hypothesis Htitle : Js.get newValue "title" = Some title.
Hypothesis Hcompleted : Js.get newValue "completed" = Some completed.

Lemma editTodo_rejected :
  rejects title completed = true ->
  editTodo (mkRequest id newValue) = Respond invalid_request.
Proof.
  intros Hr. unfold editTodo; simpl.
  rewrite Htitle, Hcompleted, Hr. reflexivity.
Qed.

Lemma editTodo_forwarded :
  rejects title completed = false ->
  exists k,
    editTodo (mkRequest id newValue)
    = Await (FindByIdAndUpdate id newValue true) k
    /\ (forall v, k (Resolved v) = Respond (mkResponse 200 v))
    /\ (forall e, k (Thrown e) = Respond internal_server_error).
Proof.
  intros Hr. unfold editTodo; simpl.
  rewrite Htitle, Hcompleted, Hr.
  eexists; split; [reflexivity|]. split; reflexivity.
Qed.

End EditTodo.

Lemma rejects_true_iff (title completed : Js.value) :
  rejects title completed = true <->
  (Js.truthy title = false /\ Js.truthy completed = false)
  \/ Js.is_empty_string title = true.
Proof.
  unfold rejects.
  rewrite orb_true_iff, andb_true_iff, !negb_true_iff. tauto.
Qed.

Lemma get_obj (fields : list (string * Js.value)) (k : string) :
  Js.get (Js.Obj fields) k
  = Some match Js.lookup k fields with Some x => x | None => Js.Undefined end.
Proof. reflexivity. Qed.

(** Running a handler that awaits one call. *)
Lemma run_await (S : Type) (st : Store S) (s : S) (c : StoreCall)
      (k : Outcome -> Handler) (r : Response) :
  k (fst (exec st c s)) = Respond r ->
  run st (Await c k) s = mkRun r (snd (exec st c s)) [c].
Proof.
  intros Hk. simpl. destruct (exec st c s) as [o s']; simpl in *.
  rewrite Hk. reflexivity.
Qed.


(** The literal truth table of the pre-validation on an object payload. *)
Lemma editTodo_invalid_request_iff
      (id : string) (fields : list (string * Js.value)) :
  let title := match Js.lookup "title" fields with
               | Some x => x | None => Js.Undefined end in
  let completed := match Js.lookup "completed" fields with
                   | Some x => x | None => Js.Undefined end in
  editTodo (mkRequest id (Js.Obj fields)) = Respond invalid_request
  <-> (Js.truthy title = false /\ Js.truthy completed = false)
      \/ Js.is_empty_string title = true.
Proof.
  intros t c. rewrite <- rejects_true_iff.
  unfold editTodo. simpl. fold t c.
  destruct (rejects t c); split; intros H; try reflexivity; discriminate H.
Qed.

(** ** C1 *)

(** C1 (the code departs from it): the update pre-validation is meant to
    reject exactly the payloads that supply neither [title] nor [completed]
    or an empty [title].  The payload [{completed: false}] supplies
    [completed] and no [title], yet the handler answers 400
    [{error: "Invalid request"}] without calling the store. *)
Theorem editTodo_rejects_completed_false (id : string) :
  let payload := Js.Obj [("completed", Js.Bool false)] in
  Js.has payload "completed" = true
  /\ Js.has payload "title" = false
  /\ editTodo (mkRequest id payload) = Respond invalid_request.
Proof. repeat split. Qed.

(** ** C9 *)

(** C9: a payload with no [title] key whose [completed] is truthy passes the
    pre-validation and reaches the store; one whose [completed] is present
    but falsy ([false], [""], [0], [null]) is answered 400
    [{error: "Invalid request"}]. *)
Theorem editTodo_completed_only
        (id : string) (fields : list (string * Js.value)) (c : Js.value) :
  Js.lookup "title" fields = None ->
  Js.lookup "completed" fields = Some c ->
  (Js.truthy c = true ->
   exists k,
     editTodo (mkRequest id (Js.Obj fields))
     = Await (FindByIdAndUpdate id (Js.Obj fields) true) k)
  /\ (Js.truthy c = false ->
      editTodo (mkRequest id (Js.Obj fields)) = Respond invalid_request).
Proof.
  intros Ht Hc.
  assert (Gt : Js.get (Js.Obj fields) "title" = Some Js.Undefined)
    by (rewrite get_obj, Ht; reflexivity).
  assert (Gc : Js.get (Js.Obj fields) "completed" = Some c)
    by (rewrite get_obj, Hc; reflexivity).
  split; intros Hc'.
  - destruct (@editTodo_forwarded id _ _ _ Gt Gc) as (k & Hk & _).
    + unfold rejects. rewrite Hc'. reflexivity.
    + exists k. exact Hk.
  - apply (@editTodo_rejected id _ _ _ Gt Gc).
    unfold rejects. rewrite Hc'. reflexivity.
Qed.

Lemma editTodo_completed_only_witness :
  (exists k,
     editTodo (mkRequest "64fb1a0f41995f2690f6cf8a"
                         (Js.Obj [("completed", Js.Bool true)]))
     = Await (FindByIdAndUpdate "64fb1a0f41995f2690f6cf8a"
                                (Js.Obj [("completed", Js.Bool true)]) true) k)
  /\ editTodo (mkRequest "64fb1a0f41995f2690f6cf8a"
                         (Js.Obj [("completed", Js.Str "")]))
     = Respond invalid_request.
Proof.
  split.
  - apply (editTodo_completed_only "64fb1a0f41995f2690f6cf8a"
             [("completed", Js.Bool true)] (c := Js.Bool true));
      reflexivity.
  - apply (editTodo_completed_only "64fb1a0f41995f2690f6cf8a"
             [("completed", Js.Str "")] (c := Js.Str ""));
      reflexivity.
Defined.

(** ** C10 *)

(** C10: when the payload passes the pre-validation, the update document
    handed to the store is the request body itself, whatever other fields it
    carries, and that call is the only one made. *)
Theorem editTodo_forwards_body
        (S : Type) (st : Store S) (s : S) (req : Request)
        (title completed : Js.value) :
  Js.get (body req) "title" = Some title ->
  Js.get (body req) "completed" = Some completed ->
  rejects title completed = false ->
  (exists k,
     editTodo req = Await (FindByIdAndUpdate (params_id req) (body req) true) k)
  /\ calls (run st (editTodo req) s)
     = [FindByIdAndUpdate (params_id req) (body req) true].
Proof.
  intros Ht Hc Hr. destruct req as [id b]; simpl in *.
  destruct (@editTodo_forwarded id _ _ _ Ht Hc Hr) as (k & Hk & Hv & He).
  split; [exists k; exact Hk|].
  rewrite Hk.
  destruct (fst (exec st (FindByIdAndUpdate id b true) s)) as [v|e] eqn:E.
  - rewrite (run_await st s _ k (r := mkResponse 200 v)); [reflexivity|].
    rewrite E. apply Hv.
  - rewrite (run_await st s _ k (r := internal_server_error)); [reflexivity|].
    rewrite E. apply He.
Qed.

Lemma editTodo_forwards_body_witness :
  let req := mkRequest "64fb1a0f41995f2690f6cf8a"
               (Js.Obj [("title", Js.Str "Walk dog"); ("priority", Js.Num 3)]) in
  calls (run (Todo.model Todo.raising) (editTodo req) (Todo.mkCollection [] 0))
  = [FindByIdAndUpdate (params_id req) (body req) true].
Proof.
  intros req.
  apply (editTodo_forwards_body (Todo.model Todo.raising)
           (Todo.mkCollection [] 0) req
           (title := Js.Str "Walk dog") (completed := Js.Undefined));
    reflexivity.
Defined.

(** ** C2 *)




(** ** C3 *)

(** C3: whenever the store throws on the save, the create handler answers
    500 [{error: "Internal server error"}]; the Todo model throws on
    [{title: ""}], so that create is answered 500, not 400, and nothing is
    stored. *)
Theorem addTodo_store_error :
  (forall (S : Type) (st : Store S) (s s' : S) (req : Request) (e : StoreError),
     exec st (Save (body req)) s = (Thrown e, s') ->
     run st (addTodo req) s
     = mkRun internal_server_error s' [Save (body req)])
  /\ (forall (open : Todo.Open) (s : Todo.Collection) (id : string),
        let r := run (Todo.model open)
                     (addTodo (mkRequest id (Js.Obj [("title", Js.Str "")]))) s in
        response r = internal_server_error
        /\ status (response r) <> 400
        /\ final r = s).
Proof.
  split.
  - intros S st s s' req e H. unfold addTodo. simpl. rewrite H. reflexivity.
  - intros open s id. simpl. repeat split. discriminate.
Qed.

Lemma addTodo_store_error_witness :
  run failing (addTodo (mkRequest "" (Js.Obj [("title", Js.Str "do something")]))) tt
  = mkRun internal_server_error tt
          [Save (Js.Obj [("title", Js.Str "do something")])].
Proof.
  apply (proj1 addTodo_store_error unit failing tt tt
               (mkRequest "" (Js.Obj [("title", Js.Str "do something")]))
               (OtherError "Simulated error")).
  reflexivity.
Defined.

(** ** C4 *)

(** C4: when the payload passes the pre-validation and the identifier is in
    the store's format but no stored Item has it, the handler calls the
    store once, the update resolves to [null], and the answer is 200 with
    body [null]; the collection is left as it was.  More generally, for any
    store, an update that resolves to [null] is answered 200 with body
    [null]. *)
Theorem editTodo_not_found
        (req : Request) (title completed : Js.value) :
  Js.get (body req) "title" = Some title ->
  Js.get (body req) "completed" = Some completed ->
  rejects title completed = false ->
  (forall (open : Todo.Open) (s : Todo.Collection),
     Todo.isValidObjectId (params_id req) = true ->
     Todo.findById (params_id req) (Todo.docs s) = None ->
     run (Todo.model open) (editTodo req) s
     = mkRun (mkResponse 200 Js.Null) s
             [FindByIdAndUpdate (params_id req) (body req) true])
  /\ (forall (S : Type) (st : Store S) (s : S),
        let c := FindByIdAndUpdate (params_id req) (body req) true in
        fst (exec st c s) = Resolved Js.Null ->
        run st (editTodo req) s
        = mkRun (mkResponse 200 Js.Null) (snd (exec st c s)) [c]).
Proof.
  intros Ht Hc Hr. destruct req as [id b]; simpl in *.
  destruct (@editTodo_forwarded id _ _ _ Ht Hc Hr) as (k & Hk & Hv & _).
  rewrite Hk. split.
  - intros open s Hid Hfind.
    rewrite (run_await (Todo.model open) s _ k (r := mkResponse 200 Js.Null)).
    + simpl. rewrite Hfind, Hid. reflexivity.
    + simpl. rewrite Hfind, Hid. apply Hv.
  - intros S st s Hnull. apply run_await. rewrite Hnull. apply Hv.
Qed.

Lemma editTodo_not_found_witness :
  run (Todo.model Todo.raising)
      (editTodo (mkRequest "64fb1a0f41995f2690f6cf8a"
                           (Js.Obj [("completed", Js.Num 1)])))
      (Todo.mkCollection [Todo.mkItem (Todo.objectId 0) "Walk cat" false] 1)
  = mkRun (mkResponse 200 Js.Null)
          (Todo.mkCollection [Todo.mkItem (Todo.objectId 0) "Walk cat" false] 1)
          [FindByIdAndUpdate "64fb1a0f41995f2690f6cf8a"
                             (Js.Obj [("completed", Js.Num 1)]) true].
Proof.
  apply (proj1 (editTodo_not_found
                  (mkRequest "64fb1a0f41995f2690f6cf8a"
                             (Js.Obj [("completed", Js.Num 1)]))
                  (title := Js.Undefined) (completed := Js.Num 1)
                  eq_refl eq_refl eq_refl)
               Todo.raising
               (Todo.mkCollection
                  [Todo.mkItem (Todo.objectId 0) "Walk cat" false] 1));
    reflexivity.
Defined.

(** ** C7 *)

(** C7: on the Todo model the list handler answers 200 with the Items of
    the collection in order, the empty sequence for the empty collection,
    and leaves the collection as it is; whenever the store throws on the
    find, it answers 500 [{error: "Internal server error"}]. *)
Theorem getAllTodos_lists :
  (forall (open : Todo.Open) (req : Request) (s : Todo.Collection),
     run (Todo.model open) (getAllTodos req) s
     = mkRun (mkResponse 200 (Js.Arr (map Todo.toJSON (Todo.docs s)))) s
             [Find (Js.Obj [])])
  /\ (forall (open : Todo.Open) (req : Request) (n : N),
        response (run (Todo.model open) (getAllTodos req) (Todo.mkCollection [] n))
        = mkResponse 200 (Js.Arr []))
  /\ (forall (S : Type) (st : Store S) (s s' : S) (req : Request) (e : StoreError),
        exec st (Find (Js.Obj [])) s = (Thrown e, s') ->
        response (run st (getAllTodos req) s) = internal_server_error).
Proof.
  split; [|split].
  - intros open req s. reflexivity.
  - intros open req n. reflexivity.
  - intros S st s s' req e H. unfold getAllTodos. simpl. rewrite H. reflexivity.
Qed.

Lemma getAllTodos_lists_witness :
  response (run failing (getAllTodos (mkRequest "" Js.Undefined)) tt)
  = internal_server_error.
Proof.
  apply (proj2 (proj2 getAllTodos_lists) unit failing tt tt
               (mkRequest "" Js.Undefined) (OtherError "Simulated error")).
  reflexivity.
Defined.

(** ** The Todo model: updates and identifiers *)

Lemma findById_replace (id : string) (it it' : Todo.Item) (l : list Todo.Item) :
  Todo.findById id l = Some it ->
  Todo._id it' = Todo._id it ->
  Todo.findById id (Todo.replace id it' l) = Some it'.
Proof.
  unfold Todo.findById. intros Hfind Hid.
  induction l as [|x l IH]; simpl in *; [discriminate|].
  destruct (Todo._id x =? lower_string id)%string eqn:E.
  - injection Hfind as ->. simpl. rewrite Hid, E. reflexivity.
  - simpl. rewrite E. apply IH. exact Hfind.
Qed.

Lemma hex_digit_is_hex (d : N) : Todo.is_hex (Todo.hex_digit d) = true.
Proof.
  unfold Todo.hex_digit. generalize (N.to_nat d). intros k.
  do 16 (destruct k as [|k]; [reflexivity|]). reflexivity.
Qed.

Lemma hex_digits_length (w : nat) (n : N) (acc : string) :
  String.length (Todo.hex_digits w n acc) = (w + String.length acc)%nat.
Proof.
  revert n acc. induction w as [|w IH]; intros n acc; simpl; [reflexivity|].
  rewrite IH. simpl. lia.
Qed.

Lemma hex_digits_all_hex (w : nat) (n : N) (acc : string) :
  Todo.all_hex acc = true -> Todo.all_hex (Todo.hex_digits w n acc) = true.
Proof.
  revert n acc. induction w as [|w IH]; intros n acc H; simpl; [exact H|].
  apply IH. simpl. rewrite hex_digit_is_hex, H. reflexivity.
Qed.

(** Generated identifiers are in the store's format. *)
Lemma objectId_valid (n : N) : Todo.isValidObjectId (Todo.objectId n) = true.
Proof.
  unfold Todo.isValidObjectId, Todo.objectId.
  rewrite hex_digits_length, hex_digits_all_hex by reflexivity.
  reflexivity.
Qed.

(** ** C5 *)

(** C5: for a stored Item, an update with only [completed] that is answered
    200 carries the Item with the same [_id] and [title] and the supplied
    [completed], and that is the Item then stored; an update with only
    [title] that is answered 200 likewise keeps [_id] and [completed]. *)
Theorem editTodo_single_field
        (open : Todo.Open)
        (s : Todo.Collection) (id : string) (it : Todo.Item) :
  Todo.findById id (Todo.docs s) = Some it ->
  (forall b : bool,
     let r := run (Todo.model open)
                  (editTodo (mkRequest id (Js.Obj [("completed", Js.Bool b)]))) s in
     let it' := Todo.mkItem (Todo._id it) (Todo.title it) b in
     status (response r) = 200 ->
     response r = mkResponse 200 (Todo.toJSON it')
     /\ Todo.findById id (Todo.docs (final r)) = Some it')
  /\ (forall t : string,
        let r := run (Todo.model open)
                     (editTodo (mkRequest id (Js.Obj [("title", Js.Str t)]))) s in
        let it' := Todo.mkItem (Todo._id it) t (Todo.completed it) in
        status (response r) = 200 ->
        response r = mkResponse 200 (Todo.toJSON it')
        /\ Todo.findById id (Todo.docs (final r)) = Some it').
Proof.
  intros Hfind. split.
  - intros b r it'. subst r. unfold editTodo. simpl.
    unfold rejects. simpl. destruct b; simpl; [|discriminate].
    rewrite Hfind. simpl. intros _. split; [reflexivity|].
    apply findById_replace with (it := it); [exact Hfind|reflexivity].
  - intros t r it'. subst r. unfold editTodo. simpl.
    unfold rejects. simpl. destruct (t =? "")%string; simpl; [discriminate|].
    rewrite Hfind. simpl. intros _. split; [reflexivity|].
    apply findById_replace with (it := it); [exact Hfind|reflexivity].
Qed.

Lemma editTodo_single_field_witness :
  let s := Todo.mkCollection [Todo.mkItem (Todo.objectId 0) "Walk cat" false] 1 in
  response
    (run (Todo.model Todo.raising)
         (editTodo (mkRequest (Todo.objectId 0)
                              (Js.Obj [("completed", Js.Bool true)]))) s)
  = mkResponse 200 (Todo.toJSON (Todo.mkItem (Todo.objectId 0) "Walk cat" true))
  /\ response
       (run (Todo.model Todo.raising)
            (editTodo (mkRequest (Todo.objectId 0)
                                 (Js.Obj [("title", Js.Str "Walk dog")]))) s)
     = mkResponse 200 (Todo.toJSON (Todo.mkItem (Todo.objectId 0) "Walk dog" false)).
Proof.
  intros s.
  pose proof (editTodo_single_field Todo.raising s (Todo.objectId 0)
                (it := Todo.mkItem (Todo.objectId 0) "Walk cat" false) eq_refl)
    as [Hc Ht].
  split.
  - exact (proj1 (Hc true eq_refl)).
  - exact (proj1 (Ht "Walk dog" eq_refl)).
Defined.

(** ** C6 *)

(** C6: a create whose payload has a non-empty [title] and no [completed]
    is answered 201 with the Item that the store appended: the supplied
    [title], [completed] false, and a fresh [_id] in the store's format. *)
Theorem addTodo_defaults
        (open : Todo.Open) (s : Todo.Collection) (id : string)
        (fields : list (string * Js.value)) (t : string) :
  Js.lookup "title" fields = Some (Js.Str t) ->
  t <> "" ->
  Js.lookup "completed" fields = None ->
  let it := Todo.mkItem (Todo.objectId (Todo.inserted s)) t false in
  run (Todo.model open) (addTodo (mkRequest id (Js.Obj fields))) s
  = mkRun (mkResponse 201 (Todo.toJSON it))
          (Todo.mkCollection (Todo.docs s ++ [it]) (Todo.inserted s + 1))
          [Save (Js.Obj fields)]
  /\ Js.get (Todo.toJSON it) "completed" = Some (Js.Bool false)
  /\ Js.get (Todo.toJSON it) "title" = Some (Js.Str t)
  /\ Js.has (Todo.toJSON it) "_id" = true
  /\ Todo.isValidObjectId (Todo._id it) = true.
Proof.
  intros Ht Hne Hc it.
  assert (E : (t =? "")%string = false) by (apply String.eqb_neq; exact Hne).
  repeat split.
  - unfold addTodo. simpl. unfold Todo.validate. simpl.
    rewrite Ht, Hc, E. reflexivity.
  - apply objectId_valid.
Qed.

Lemma addTodo_defaults_witness :
  response
    (run (Todo.model Todo.raising)
         (addTodo (mkRequest "" (Js.Obj [("title", Js.Str "Make a cake")])))
         (Todo.mkCollection [] 0))
  = mkResponse 201
      (Js.Obj [("_id", Js.Str "000000000000000000000000");
               ("title", Js.Str "Make a cake");
               ("completed", Js.Bool false)]).
Proof.
  pose proof (addTodo_defaults Todo.raising (Todo.mkCollection [] 0) ""
                [("title", Js.Str "Make a cake")] (t := "Make a cake")
                eq_refl ltac:(discriminate) eq_refl) as [H _].
  rewrite H. reflexivity.
Defined.

(** ** Routing *)

Import App.

Lemma test_mode_iff (NODE_ENV : option string) :
  test_mode NODE_ENV = true <-> NODE_ENV = Some "test".
Proof.
  destruct NODE_ENV as [v|]; simpl.
  - rewrite String.eqb_eq. split; congruence.
  - split; discriminate.
Qed.

(** A path below [/api/test] is not below [/api/todos]: the two prefixes
    part at their seventh character. *)
Lemma below_test_not_todos (p sub : string) :
  below "/api/test" p = Some sub -> below "/api/todos" p = None.
Proof.
  unfold below.
  do 7 (destruct p as [|? p]; cbn [strip]; [discriminate|];
        match goal with
        | |- context [Ascii.eqb ?a (lower ?c)] =>
            destruct (Ascii.eqb a (lower c)) eqn:?; [|discriminate]
        end).
  match goal with
  | H : Ascii.eqb "e" (lower ?c) = true |- _ =>
      apply Ascii.eqb_eq in H; rewrite <- H
  end.
  reflexivity.
Qed.

Section Routing.

Variables (express_json cors : Middleware).
Variables (todosRouter testingRouter : Router).

Let the_app := app express_json cors todosRouter testingRouter.

Lemma app_outside_test_mode (NODE_ENV : option string) :
  test_mode NODE_ENV = false ->
  the_app NODE_ENV
  = [Use express_json; Use cors; Mount "/api/todos" todosRouter].
Proof. intros H. unfold the_app, app. rewrite H. reflexivity. Qed.

(** Outside test mode a request below [/api/test] ends in a global
    middleware or in the final 404. *)
Lemma dispatch_outside_test_mode
      (NODE_ENV : option string) (req : HttpRequest) (sub : string) :
  test_mode NODE_ENV = false ->
  below "/api/test" (path req) = Some sub ->
  dispatch (the_app NODE_ENV) req
  = Respond
      match express_json req with
      | End r => r
      | Next b =>
          match cors (mkHttpRequest (method req) (path req) b) with
          | End r => r
          | Next _ => not_found
          end
      end.
Proof.
  intros Hmode Hsub. rewrite (app_outside_test_mode _ Hmode). simpl.
  destruct (express_json req) as [r|b]; [reflexivity|].
  destruct (cors _) as [r|b']; [reflexivity|]. simpl.
  rewrite (below_test_not_todos _ Hsub). reflexivity.
Qed.

End Routing.

(** ** C8 *)

(** Outside test mode the default [cors()] answers a preflight request
    below [/api/test] with 204, not with 404. *)
Lemma test_route_404_counterexample :
  let app := app pass cors_default todosRoutes testingRoutes
                 (Some "production") in
  let req := mkHttpRequest OPTIONS "/api/test/deleteAll" Js.Undefined in
  mounted "/api/test" app = false
  /\ below "/api/test" (path req) = Some "/deleteAll"
  /\ dispatch app req = Respond (mkResponse 204 Js.Undefined)
  /\ dispatch app req <> Respond not_found.
Proof. repeat split. discriminate. Qed.

(** C8 (amended): the router of [/api/test] is mounted exactly when
    [NODE_ENV] is [test]; otherwise a request below [/api/test] makes no
    store call and leaves the collection as it is, and is answered 404 once
    the body parser and the CORS middleware have passed it on; when one of
    the two ends the response, the answer is that middleware's. *)
Theorem test_route_only_in_test_mode
        (express_json cors : Middleware) (todosRouter testingRouter : Router) :
  let app := app express_json cors todosRouter testingRouter in
  (forall NODE_ENV,
     mounted "/api/test" (app NODE_ENV) = true <-> NODE_ENV = Some "test")
  /\ (forall NODE_ENV req sub,
        NODE_ENV <> Some "test" ->
        below "/api/test" (path req) = Some sub ->
        (forall (S : Type) (st : Store S) (s : S),
           calls (run st (dispatch (app NODE_ENV) req) s) = []
           /\ final (run st (dispatch (app NODE_ENV) req) s) = s)
        /\ (forall b b',
              express_json req = Next b ->
              cors (mkHttpRequest (method req) (path req) b) = Next b' ->
              dispatch (app NODE_ENV) req = Respond not_found)
        /\ dispatch (app NODE_ENV) req
           = Respond
               match express_json req with
               | End r => r
               | Next b =>
                   match cors (mkHttpRequest (method req) (path req) b) with
                   | End r => r
                   | Next _ => not_found
                   end
               end).
Proof.
  intros the_app. split.
  - intros env. rewrite <- test_mode_iff. unfold the_app, app. simpl.
    destruct (test_mode env); simpl; split; auto.
  - intros env req sub Henv Hsub.
    assert (Hmode : test_mode env = false).
    { destruct (test_mode env) eqn:E; [|reflexivity].
      apply test_mode_iff in E. contradiction. }
    pose proof (dispatch_outside_test_mode express_json cors todosRouter
                  testingRouter env req Hmode Hsub) as Hd.
    fold the_app in Hd. split; [|split].
    + intros S st s. rewrite Hd. simpl. split; reflexivity.
    + intros b b' Hj Hc. rewrite Hd, Hj, Hc. reflexivity.
    + exact Hd.
Qed.

Lemma test_route_only_in_test_mode_witness :
  dispatch (app pass pass todosRoutes testingRoutes (Some "production"))
           (mkHttpRequest POST "/api/test/deleteAll" (Js.Obj []))
  = Respond not_found.
Proof.
  apply (proj1 (proj2 (proj2 (test_route_only_in_test_mode
                                pass pass todosRoutes testingRoutes)
                             (Some "production")
                             (mkHttpRequest POST "/api/test/deleteAll" (Js.Obj []))
                             "/deleteAll" ltac:(discriminate) eq_refl)))
    with (b := Js.Obj []) (b' := Js.Obj []); reflexivity.
Defined.

(** In test mode the same request reaches the reset handler. *)
Example deleteAll_in_test_mode :
  run (Todo.model Todo.raising)
      (dispatch (app pass pass todosRoutes testingRoutes (Some "test"))
                (mkHttpRequest POST "/api/test/deleteAll" (Js.Obj [])))
      (Todo.mkCollection [Todo.mkItem (Todo.objectId 0) "Feed dog" false] 1)
  = mkRun (mkResponse 200 Js.Undefined) (Todo.mkCollection [] 1)
          [DeleteMany (Js.Obj [])].
Proof. reflexivity. Qed.

(** * Further properties of the controller *)

(** The whole run of the update handler against any store. *)
Lemma editTodo_run (S : Type) (st : Store S) (s : S) (req : Request) :
  run st (editTodo req) s
  = match Js.get (body req) "title", Js.get (body req) "completed" with
    | Some title, Some completed =>
        if rejects title completed then mkRun invalid_request s []
        else
          let c := FindByIdAndUpdate (params_id req) (body req) true in
          mkRun match fst (exec st c s) with
                | Resolved v => mkResponse 200 v
                | Thrown _ => internal_server_error
                end
                (snd (exec st c s)) [c]
    | _, _ => mkRun internal_server_error s []
    end.
Proof.
  unfold editTodo.
  destruct (Js.get (body req) "title") as [t|]; [|reflexivity].
  destruct (Js.get (body req) "completed") as [c|]; [|reflexivity].
  destruct (rejects t c); [reflexivity|].
  simpl. destruct (exec st _ s) as [[v|e] s']; reflexivity.
Qed.

(** X1: an update answered 400 is answered [{error: "Invalid request"}],
    and the store was not called: its state is what it was. *)
Theorem editTodo_400_without_store
        (S : Type) (st : Store S) (s : S) (req : Request) :
  status (response (run st (editTodo req) s)) = 400 ->
  response (run st (editTodo req) s) = invalid_request
  /\ calls (run st (editTodo req) s) = []
  /\ final (run st (editTodo req) s) = s.
Proof.
  rewrite editTodo_run.
  destruct (Js.get (body req) "title") as [t|]; [|discriminate].
  destruct (Js.get (body req) "completed") as [c|]; [|discriminate].
  destruct (rejects t c); [intros _; repeat split|].
  simpl. destruct (fst (exec st _ s)); discriminate.
Qed.

Lemma editTodo_400_without_store_witness :
  calls (run (Todo.model Todo.raising) (editTodo (mkRequest "123" (Js.Obj [])))
             (Todo.mkCollection [] 0)) = [].
Proof.
  apply (editTodo_400_without_store (Todo.model Todo.raising)
           (Todo.mkCollection [] 0)
           (mkRequest "123" (Js.Obj []))).
  reflexivity.
Defined.

(** X2: whatever the store does, the list handler answers 200 or the
    generic 500, the create handler 201 or the generic 500, and the update
    handler 200, 400 [{error: "Invalid request"}] or the generic 500: an
    error answer never carries anything of the store's error. *)
Theorem handlers_responses
        (S : Type) (st : Store S) (s : S) (req : Request) :
  (let r := response (run st (getAllTodos req) s) in
   status r = 200 \/ r = internal_server_error)
  /\ (let r := response (run st (addTodo req) s) in
      status r = 201 \/ r = internal_server_error)
  /\ (let r := response (run st (editTodo req) s) in
      status r = 200 \/ r = invalid_request \/ r = internal_server_error).
Proof.
  split; [|split].
  - unfold getAllTodos. simpl.
    destruct (exec st _ s) as [[v|e] s']; simpl; auto.
  - unfold addTodo. simpl.
    destruct (exec st _ s) as [[v|e] s']; simpl; auto.
  - rewrite editTodo_run.
    destruct (Js.get (body req) "title") as [t|]; [|simpl; auto].
    destruct (Js.get (body req) "completed") as [c|]; [|simpl; auto].
    destruct (rejects t c); [simpl; auto|].
    simpl. destruct (fst (exec st _ s)); simpl; auto.
Qed.

(** X3: no handler calls the store twice.  The list handler makes the one
    call [find({})], the create handler the one call that saves the body;
    the update handler makes no call or the one update call. *)
Theorem handlers_single_call
        (S : Type) (st : Store S) (s : S) (req : Request) :
  calls (run st (getAllTodos req) s) = [Find (Js.Obj [])]
  /\ calls (run st (addTodo req) s) = [Save (body req)]
  /\ (calls (run st (editTodo req) s) = []
      \/ calls (run st (editTodo req) s)
         = [FindByIdAndUpdate (params_id req) (body req) true]).
Proof.
  split; [|split].
  - unfold getAllTodos. simpl.
    destruct (exec st _ s) as [[v|e] s']; reflexivity.
  - unfold addTodo. simpl.
    destruct (exec st _ s) as [[v|e] s']; reflexivity.
  - rewrite editTodo_run.
    destruct (Js.get (body req) "title") as [t|]; [|left; reflexivity].
    destruct (Js.get (body req) "completed") as [c|]; [|left; reflexivity].
    destruct (rejects t c); [left|right]; reflexivity.
Qed.

(** X4: the create handler validates nothing itself.  It answers 201
    exactly when the save resolves, whatever the payload is, and the body
    of the 201 is the value the save resolved to. *)
Theorem addTodo_created_iff
        (S : Type) (st : Store S) (s : S) (req : Request) :
  (status (response (run st (addTodo req) s)) = 201
   <-> exists v, fst (exec st (Save (body req)) s) = Resolved v)
  /\ (forall v,
        fst (exec st (Save (body req)) s) = Resolved v ->
        response (run st (addTodo req) s) = mkResponse 201 v
        /\ final (run st (addTodo req) s) = snd (exec st (Save (body req)) s)).
Proof.
  unfold addTodo. simpl.
  destruct (exec st (Save (body req)) s) as [[v|e] s']; simpl; split.
  - split; [intros _; exists v; reflexivity|reflexivity].
  - intros v' H. injection H as <-. split; reflexivity.
  - split; [discriminate|intros [v H]; discriminate H].
  - intros v H. discriminate H.
Qed.

Lemma addTodo_created_iff_witness :
  response (run (Todo.model Todo.raising)
                (addTodo (mkRequest "" (Js.Obj [("title", Js.Str "Make a cake")])))
                (Todo.mkCollection [] 0))
  = mkResponse 201
      (Todo.toJSON (Todo.mkItem (Todo.objectId 0) "Make a cake" false)).
Proof.
  apply (proj2 (addTodo_created_iff (Todo.model Todo.raising)
                  (Todo.mkCollection [] 0)
                  (mkRequest "" (Js.Obj [("title", Js.Str "Make a cake")])))).
  reflexivity.
Defined.

(** X5: the update handler answers 200 exactly when the payload passes the
    pre-validation and the store's update resolves; the body of the 200 is
    the value the update resolved to, unchanged. *)
Theorem editTodo_ok_iff
        (S : Type) (st : Store S) (s : S) (req : Request) :
  let c := FindByIdAndUpdate (params_id req) (body req) true in
  (status (response (run st (editTodo req) s)) = 200
   <-> exists title completed v,
         Js.get (body req) "title" = Some title
         /\ Js.get (body req) "completed" = Some completed
         /\ rejects title completed = false
         /\ fst (exec st c s) = Resolved v)
  /\ (forall v,
        status (response (run st (editTodo req) s)) = 200 ->
        fst (exec st c s) = Resolved v ->
        response (run st (editTodo req) s) = mkResponse 200 v).
Proof.
  intros c. rewrite editTodo_run. fold c.
  destruct (Js.get (body req) "title") as [t|].
  2:{ split; [split; [discriminate|]|discriminate].
      intros (t & c' & v & H & _); discriminate H. }
  destruct (Js.get (body req) "completed") as [c0|].
  2:{ split; [split; [discriminate|]|discriminate].
      intros (t' & c' & v & _ & H & _); discriminate H. }
  destruct (rejects t c0) eqn:Hr.
  - split; [split; [discriminate|]|discriminate].
    intros (t' & c' & v & H1 & H2 & H3 & _).
    injection H1 as <-. injection H2 as <-. congruence.
  - simpl. destruct (fst (exec st c s)) as [v|e] eqn:E; simpl.
    + split.
      * split; [intros _; exists t, c0, v; auto|reflexivity].
      * intros v' _ H. injection H as <-. reflexivity.
    + split; [split; [discriminate|]|discriminate].
      intros (t' & c' & v & _ & _ & _ & H). discriminate H.
Qed.

Lemma editTodo_ok_iff_witness :
  response (run (Todo.model Todo.raising)
                (editTodo (mkRequest "64fb1a0f41995f2690f6cf8a"
                                     (Js.Obj [("title", Js.Str "Walk dog")])))
                (Todo.mkCollection [] 0))
  = mkResponse 200 Js.Null.
Proof.
  apply (proj2 (editTodo_ok_iff (Todo.model Todo.raising)
                  (Todo.mkCollection [] 0)
                  (mkRequest "64fb1a0f41995f2690f6cf8a"
                             (Js.Obj [("title", Js.Str "Walk dog")]))));
    reflexivity.
Defined.

(** ** The pre-validation, payload by payload *)

(** X6: a body that is [undefined] or [null] makes the property read
    throw inside the [try]; the update handler answers the generic 500 and
    the store is not called. *)
Theorem editTodo_unreadable_body
        (S : Type) (st : Store S) (s : S) (id : string) :
  run st (editTodo (mkRequest id Js.Undefined)) s
  = mkRun internal_server_error s []
  /\ run st (editTodo (mkRequest id Js.Null)) s
     = mkRun internal_server_error s [].
Proof. split; reflexivity. Qed.

(** X7: a truthy [title] passes the pre-validation whatever [completed]
    is, so [{title: "Walk dog", completed: false}] reaches the store. *)
Theorem editTodo_truthy_title_passes
        (id : string) (fields : list (string * Js.value)) (title : Js.value) :
  Js.lookup "title" fields = Some title ->
  Js.truthy title = true ->
  exists k,
    editTodo (mkRequest id (Js.Obj fields))
    = Await (FindByIdAndUpdate id (Js.Obj fields) true) k.
Proof.
  intros Ht Htruthy.
  assert (Gt : Js.get (Js.Obj fields) "title" = Some title)
    by (rewrite get_obj, Ht; reflexivity).
  destruct (@editTodo_forwarded id _ _ _ Gt (get_obj fields "completed"))
    as (k & Hk & _).
  - unfold rejects. rewrite Htruthy. simpl.
    destruct title; try reflexivity.
    simpl in Htruthy. apply negb_true_iff. exact Htruthy.
  - exists k. exact Hk.
Qed.

Lemma editTodo_truthy_title_passes_witness :
  exists k,
    editTodo (mkRequest "64fb1a0f41995f2690f6cf8a"
                (Js.Obj [("title", Js.Str "Walk dog");
                         ("completed", Js.Bool false)]))
    = Await (FindByIdAndUpdate "64fb1a0f41995f2690f6cf8a"
               (Js.Obj [("title", Js.Str "Walk dog");
                        ("completed", Js.Bool false)]) true) k.
Proof.
  apply (editTodo_truthy_title_passes "64fb1a0f41995f2690f6cf8a"
           [("title", Js.Str "Walk dog"); ("completed", Js.Bool false)]
           (title := Js.Str "Walk dog")); reflexivity.
Defined.

(** X8: an empty-string [title] is answered 400
    [{error: "Invalid request"}] whatever else the payload holds, a truthy
    [completed] included. *)
Theorem editTodo_empty_title_rejected
        (id : string) (fields : list (string * Js.value)) :
  Js.lookup "title" fields = Some (Js.Str "") ->
  editTodo (mkRequest id (Js.Obj fields)) = Respond invalid_request.
Proof.
  intros Ht.
  assert (Gt : Js.get (Js.Obj fields) "title" = Some (Js.Str ""))
    by (rewrite get_obj, Ht; reflexivity).
  apply (@editTodo_rejected id _ _ _ Gt (get_obj fields "completed")).
  unfold rejects. simpl. apply orb_true_r.
Qed.

Lemma editTodo_empty_title_rejected_witness :
  editTodo (mkRequest "64fb1a0f41995f2690f6cf8a"
              (Js.Obj [("title", Js.Str ""); ("completed", Js.Bool true)]))
  = Respond invalid_request.
Proof.
  apply (editTodo_empty_title_rejected "64fb1a0f41995f2690f6cf8a"
           [("title", Js.Str ""); ("completed", Js.Bool true)]).
  reflexivity.
Defined.

(** X9: a falsy [title] other than the empty string ([null], [0],
    [false]) does not by itself reject the payload: with a truthy
    [completed] it passes, and the falsy [title] is handed to the store
    with the rest of the body. *)
Theorem editTodo_falsy_title_forwarded
        (id : string) (fields : list (string * Js.value))
        (title completed : Js.value) :
  Js.lookup "title" fields = Some title ->
  Js.lookup "completed" fields = Some completed ->
  Js.truthy title = false ->
  Js.is_empty_string title = false ->
  Js.truthy completed = true ->
  exists k,
    editTodo (mkRequest id (Js.Obj fields))
    = Await (FindByIdAndUpdate id (Js.Obj fields) true) k.
Proof.
  intros Ht Hc Hfalsy Hne Htruthy.
  assert (Gt : Js.get (Js.Obj fields) "title" = Some title)
    by (rewrite get_obj, Ht; reflexivity).
  assert (Gc : Js.get (Js.Obj fields) "completed" = Some completed)
    by (rewrite get_obj, Hc; reflexivity).
  destruct (@editTodo_forwarded id _ _ _ Gt Gc) as (k & Hk & _).
  - unfold rejects. rewrite Hfalsy, Htruthy, Hne. reflexivity.
  - exists k. exact Hk.
Qed.

Lemma editTodo_falsy_title_forwarded_witness :
  exists k,
    editTodo (mkRequest "64fb1a0f41995f2690f6cf8a"
                (Js.Obj [("title", Js.Null); ("completed", Js.Bool true)]))
    = Await (FindByIdAndUpdate "64fb1a0f41995f2690f6cf8a"
               (Js.Obj [("title", Js.Null); ("completed", Js.Bool true)])
               true) k.
Proof.
  apply (editTodo_falsy_title_forwarded "64fb1a0f41995f2690f6cf8a"
           [("title", Js.Null); ("completed", Js.Bool true)]
           (title := Js.Null) (completed := Js.Bool true)); reflexivity.
Defined.

(** X10: a body that is an array or a primitive has neither property, and
    is answered 400 [{error: "Invalid request"}] without a store call. *)
Theorem editTodo_non_object_rejected (id : string) :
  (forall l, editTodo (mkRequest id (Js.Arr l)) = Respond invalid_request)
  /\ (forall s, editTodo (mkRequest id (Js.Str s)) = Respond invalid_request)
  /\ (forall n, editTodo (mkRequest id (Js.Num n)) = Respond invalid_request)
  /\ (forall b, editTodo (mkRequest id (Js.Bool b)) = Respond invalid_request).
Proof. repeat split. Qed.

(** X11: the pre-validation comes before any use of the identifier: a
    payload that is rejected with one identifier is rejected with every
    other, a malformed one included. *)
Theorem editTodo_rejection_ignores_id (id id' : string) (b : Js.value) :
  editTodo (mkRequest id b) = Respond invalid_request ->
  editTodo (mkRequest id' b) = Respond invalid_request.
Proof.
  unfold editTodo. simpl.
  destruct (Js.get b "title") as [t|]; [|intros H; exact H].
  destruct (Js.get b "completed") as [c|]; [|intros H; exact H].
  destruct (rejects t c); [reflexivity|discriminate].
Qed.

Lemma editTodo_rejection_ignores_id_witness :
  editTodo (mkRequest "123" (Js.Obj [])) = Respond invalid_request.
Proof.
  apply (@editTodo_rejection_ignores_id "64fb1a0f41995f2690f6cf8a" "123"
            (Js.Obj [])).
  reflexivity.
Defined.

(** * Further properties of the application *)

Lemma below_todos_not_test (p sub : string) :
  below "/api/todos" p = Some sub -> below "/api/test" p = None.
Proof.
  unfold below.
  do 7 (destruct p as [|? p]; cbn [strip]; [discriminate|];
        match goal with
        | |- context [Ascii.eqb ?a (lower ?c)] =>
            destruct (Ascii.eqb a (lower c)) eqn:?; [|discriminate]
        end).
  match goal with
  | H : Ascii.eqb "o" (lower ?c) = true |- _ =>
      apply Ascii.eqb_eq in H; rewrite <- H
  end.
  reflexivity.
Qed.

Section Dispatch.

Variables (express_json cors : Middleware).
Variables (todosRouter testingRouter : Router).

Let the_app := app express_json cors todosRouter testingRouter.

(** Past the two global middlewares, the layers that are left see the
    request with the body the middlewares passed on. *)
Lemma dispatch_app (NODE_ENV : option string) (req : HttpRequest) :
  dispatch (the_app NODE_ENV) req
  = match express_json req with
    | End r => Respond r
    | Next b =>
        match cors (mkHttpRequest (method req) (path req) b) with
        | End r => Respond r
        | Next b' =>
            dispatch
              (Mount "/api/todos" todosRouter
               :: (if test_mode NODE_ENV
                   then [Mount "/api/test" testingRouter] else []))
              (mkHttpRequest (method req) (path req) b')
        end
    end.
Proof.
  unfold the_app, app. simpl.
  destruct (express_json req) as [r|b]; [reflexivity|].
  destruct (cors _) as [r|b']; reflexivity.
Qed.

End Dispatch.

(** X12: [NODE_ENV] matters only below [/api/test]: every other request is
    dispatched the same way in every mode. *)
Theorem dispatch_ignores_mode_elsewhere
        (express_json cors : Middleware) (todosRouter testingRouter : Router)
        (env env' : option string) (req : HttpRequest) :
  below "/api/test" (path req) = None ->
  dispatch (app express_json cors todosRouter testingRouter env) req
  = dispatch (app express_json cors todosRouter testingRouter env') req.
Proof.
  intros H. rewrite !dispatch_app.
  destruct (express_json req) as [r|b]; [reflexivity|].
  destruct (cors _) as [r|b']; [reflexivity|].
  simpl.
  destruct (below "/api/todos" (path req)) as [sub|];
    [destruct (todosRouter (method req) sub b') as [h|]; [reflexivity|]|];
    destruct (test_mode env), (test_mode env'); simpl; rewrite ?H; reflexivity.
Qed.

Lemma dispatch_ignores_mode_elsewhere_witness :
  dispatch (app pass pass todosRoutes testingRoutes (Some "test"))
           (mkHttpRequest GET "/api/todos" Js.Undefined)
  = dispatch (app pass pass todosRoutes testingRoutes None)
             (mkHttpRequest GET "/api/todos" Js.Undefined).
Proof.
  apply (dispatch_ignores_mode_elsewhere pass pass todosRoutes testingRoutes
           (Some "test") None (mkHttpRequest GET "/api/todos" Js.Undefined)).
  reflexivity.
Defined.

(** X13: in every mode a request below [/api/todos] that the global
    middlewares pass on goes to the to-do router, with the path below the
    mount point and the body as passed on; when the router has no route
    for it the answer is 404, in test mode too. *)
Theorem dispatch_todos
        (express_json cors : Middleware) (todosRouter testingRouter : Router)
        (env : option string) (req : HttpRequest) (sub : string)
        (b b' : Js.value) :
  below "/api/todos" (path req) = Some sub ->
  express_json req = Next b ->
  cors (mkHttpRequest (method req) (path req) b) = Next b' ->
  dispatch (app express_json cors todosRouter testingRouter env) req
  = match todosRouter (method req) sub b' with
    | Some h => h
    | None => Respond not_found
    end.
Proof.
  intros Hsub Hj Hc. rewrite dispatch_app, Hj, Hc. simpl. rewrite Hsub.
  destruct (todosRouter (method req) sub b') as [h|]; [reflexivity|].
  destruct (test_mode env); simpl; [|reflexivity].
  rewrite (below_todos_not_test _ Hsub). reflexivity.
Qed.

Lemma dispatch_todos_witness :
  dispatch (app pass pass todosRoutes testingRoutes (Some "test"))
           (mkHttpRequest PATCH "/api/todos/" (Js.Obj [("title", Js.Str "Walk dog")]))
  = Respond not_found.
Proof.
  apply (dispatch_todos pass pass todosRoutes testingRoutes (Some "test")
           (mkHttpRequest PATCH "/api/todos/"
                          (Js.Obj [("title", Js.Str "Walk dog")]))
           (sub := "/")
           (b := Js.Obj [("title", Js.Str "Walk dog")])
           (b' := Js.Obj [("title", Js.Str "Walk dog")])); reflexivity.
Defined.

(** X14: in test mode a request below [/api/test] that the global
    middlewares pass on goes to the testing router and to no other; when
    that router has no route for it the answer is 404. *)
Theorem dispatch_test_mode
        (express_json cors : Middleware) (todosRouter testingRouter : Router)
        (req : HttpRequest) (sub : string) (b b' : Js.value) :
  below "/api/test" (path req) = Some sub ->
  express_json req = Next b ->
  cors (mkHttpRequest (method req) (path req) b) = Next b' ->
  dispatch (app express_json cors todosRouter testingRouter (Some "test")) req
  = match testingRouter (method req) sub b' with
    | Some h => h
    | None => Respond not_found
    end.
Proof.
  intros Hsub Hj Hc. rewrite dispatch_app, Hj, Hc. simpl.
  rewrite (below_test_not_todos _ Hsub), Hsub.
  destruct (testingRouter (method req) sub b'); reflexivity.
Qed.

Lemma dispatch_test_mode_witness :
  dispatch (app pass pass todosRoutes testingRoutes (Some "test"))
           (mkHttpRequest GET "/api/test/deleteAll" Js.Undefined)
  = Respond not_found.
Proof.
  apply (dispatch_test_mode pass pass todosRoutes testingRoutes
           (mkHttpRequest GET "/api/test/deleteAll" Js.Undefined)
           (sub := "/deleteAll") (b := Js.Undefined) (b' := Js.Undefined));
    reflexivity.
Defined.

(** X15: a request whose path is below neither mount point makes no store
    call in any mode, and is answered 404 once the global middlewares have
    passed it on. *)
Theorem dispatch_elsewhere
        (express_json cors : Middleware) (todosRouter testingRouter : Router)
        (env : option string) (req : HttpRequest) :
  below "/api/todos" (path req) = None ->
  below "/api/test" (path req) = None ->
  (forall (S : Type) (st : Store S) (s : S),
     let r := run st (dispatch (app express_json cors todosRouter
                                    testingRouter env) req) s in
     calls r = [] /\ final r = s)
  /\ (forall b b',
        express_json req = Next b ->
        cors (mkHttpRequest (method req) (path req) b) = Next b' ->
        dispatch (app express_json cors todosRouter testingRouter env) req
        = Respond not_found).
Proof.
  intros Htodos Htest.
  assert (Hd : forall b',
             dispatch
               (Mount "/api/todos" todosRouter
                :: (if test_mode env
                    then [Mount "/api/test" testingRouter] else []))
               (mkHttpRequest (method req) (path req) b')
             = Respond not_found).
  { intros b'. simpl. rewrite Htodos.
    destruct (test_mode env); simpl; rewrite ?Htest; reflexivity. }
  split.
  - intros S st s. rewrite dispatch_app.
    destruct (express_json req) as [r|b]; [split; reflexivity|].
    destruct (cors _) as [r|b']; [split; reflexivity|].
    rewrite Hd. split; reflexivity.
  - intros b b' Hj Hc. rewrite dispatch_app, Hj, Hc. apply Hd.
Qed.

Lemma dispatch_elsewhere_witness :
  dispatch (app pass pass todosRoutes testingRoutes (Some "test"))
           (mkHttpRequest GET "/" Js.Undefined)
  = Respond not_found.
Proof.
  apply (proj2 (dispatch_elsewhere pass pass todosRoutes testingRoutes
                  (Some "test") (mkHttpRequest GET "/" Js.Undefined)
                  eq_refl eq_refl)
               Js.Undefined Js.Undefined); reflexivity.
Defined.
